(** * Sentiment HTTP service: request validation and response shaping

    A shallow embedding of the two analyse routes and the health route of
    [app.py] (the handlers of [main.py] are textually the same; the two
    files differ only in the usage strings of [home] and in the start-up
    block), together with the fragment of the Python runtime the handlers
    rely on: strings as sequences of code points, JSON values as decoded by
    [request.get_json()], truthiness, [in], subscripting, [str.strip],
    exceptions and [try]/[except].  The information document of [GET /],
    the route registrations and the start-up blocks of both files follow.

    The classifier (the [transformers] pipeline bound to
    [sentiment_analyzer]), Python's floats, the built-in [round], and at
    start-up [int] and the non-ASCII part of [str.lower], are
    collaborators of the service, not code of it: they are Section
    variables, so every theorem holds for all of them. *)

From Stdlib Require Import List ZArith NArith String Ascii Bool Lia.
From Stdlib Require Import DecimalString.
Import ListNotations.

Set Implicit Arguments.
Set Warnings "-register-all".

(* ================================================================== *)
(** * Python strings *)
(* ================================================================== *)

(** A Python [str] is a sequence of Unicode code points. *)
Definition pystr := list N.

(** Source literals are ASCII; [lit] reads one as a [pystr]. *)
Definition lit (s : string) : pystr :=
  map N_of_ascii (list_ascii_of_string s).

Fixpoint str_eqb (a b : pystr) : bool :=
  match a, b with
  | [], [] => true
  | x :: a', y :: b' => N.eqb x y && str_eqb a' b'
  | _, _ => false
  end.

Fixpoint startswith (s p : pystr) : bool :=
  match p, s with
  | [], _ => true
  | y :: p', x :: s' => N.eqb x y && startswith s' p'
  | _ :: _, [] => false
  end.

(** [sub in s] on two strings: substring test. *)
Fixpoint str_contains (s sub : pystr) : bool :=
  startswith s sub ||
  match s with
  | [] => false
  | _ :: s' => str_contains s' sub
  end.

(** [str.isspace] on one code point: the table behind
    [_PyUnicode_IsWhitespace]. *)
Definition is_space (c : N) : bool :=
  ((9 <=? c) && (c <=? 13) ||
   (28 <=? c) && (c <=? 32) ||
   (c =? 133) || (c =? 160) || (c =? 5760) ||
   (8192 <=? c) && (c <=? 8202) ||
   (c =? 8232) || (c =? 8233) || (c =? 8239) || (c =? 8287) ||
   (c =? 12288))%N.

Fixpoint lstrip (s : pystr) : pystr :=
  match s with
  | [] => []
  | c :: s' => if is_space c then lstrip s' else s
  end.

Definition rstrip (s : pystr) : pystr := rev (lstrip (rev s)).

(** [s.strip()] with no argument: whitespace removed at both ends. *)
Definition strip (s : pystr) : pystr := rstrip (lstrip s).

(* ================================================================== *)
(** * Python values *)
(* ================================================================== *)

Section Values.

(** The carrier of Python's [float]. *)
Variable float : Type.

(** What [request.get_json()] can hand back, and what [jsonify] takes:
    [None], [bool], [int], [float], [str], [list], and [dict] with [str]
    keys.  A dict keeps its items in insertion order; lookup takes the
    first item with the key. *)
Inductive pyval : Type :=
| PNone
| PBool (b : bool)
| PInt (n : Z)
| PFloat (f : float)
| PStr (s : pystr)
| PList (l : list pyval)
| PDict (d : list (pystr * pyval)).

(** [type(v).__name__] *)
Definition type_name (v : pyval) : pystr :=
  match v with
  | PNone => lit "NoneType"
  | PBool _ => lit "bool"
  | PInt _ => lit "int"
  | PFloat _ => lit "float"
  | PStr _ => lit "str"
  | PList _ => lit "list"
  | PDict _ => lit "dict"
  end.

Fixpoint dict_get (d : list (pystr * pyval)) (k : pystr) : option pyval :=
  match d with
  | [] => None
  | (k', v) :: d' => if str_eqb k' k then Some v else dict_get d' k
  end.

Definition dict_has (d : list (pystr * pyval)) (k : pystr) : bool :=
  match dict_get d k with Some _ => true | None => false end.

(** [v == k] for a string [k]: only an equal string compares equal. *)
Definition eq_str (k : pystr) (v : pyval) : bool :=
  match v with
  | PStr s => str_eqb s k
  | _ => false
  end.

End Values.

Arguments PNone {float}.
Arguments PBool {float} b.
Arguments PInt {float} n.
Arguments PStr {float} s.

(* ================================================================== *)
(** * Exceptions and the handler monad *)
(* ================================================================== *)

(** An instance of [Exception]: its class and the text [str(e)] gives. *)
Record exn : Type := Exn { exn_class : string; exn_str : pystr }.

Inductive outcome (A : Type) : Type :=
| Returns (a : A)
| Raises (e : exn).

Arguments Returns {A} a.
Arguments Raises {A} e.

Section Monad.

(** The state of the loaded model, whatever it is, and the type of the
    arguments it is called with. *)
Variables model arg : Type.

(** The process as a request sees it: the model behind
    [sentiment_analyzer], and the arguments it has been called with so
    far, oldest first. *)
Record world : Type := World { model_state : model; calls : list arg }.

Definition M (A : Type) : Type := world -> outcome A * world.

Definition ret {A} (a : A) : M A := fun w => (Returns a, w).

Definition raise {A} (e : exn) : M A := fun w => (Raises e, w).

Definition bind {A B} (m : M A) (k : A -> M B) : M B :=
  fun w =>
    match m w with
    | (Returns a, w') => k a w'
    | (Raises e, w') => (Raises e, w')
    end.

(** [try: body except Exception as e: handler e] *)
Definition try_except {A} (body : M A) (handler : exn -> M A) : M A :=
  fun w =>
    match body w with
    | (Returns a, w') => (Returns a, w')
    | (Raises e, w') => handler e w'
    end.

End Monad.

Arguments ret {model arg A} a.
Arguments raise {model arg A} e.

Declare Scope py_scope.
Delimit Scope py_scope with py.
Notation "x <- m ;; k" := (bind m (fun x => k))
  (at level 100, m at next level, right associativity) : py_scope.
Notation "'try' b 'except' e '=>' h" := (try_except b (fun e => h))
  (at level 100, b at next level, e name, right associativity) : py_scope.

(* ================================================================== *)
(** * The service *)
(* ================================================================== *)

(** The argument of [pipeline(..., model=...)] at module level. *)
Definition model_name : pystr :=
  lit "cardiffnlp/twitter-roberta-base-sentiment-latest".

Definition dquote : pystr := [34%N].

Definition MSG_NO_TEXT : pystr :=
  lit "Please provide text in JSON format with " ++ dquote ++ lit "text"
    ++ dquote ++ lit " key".

Definition MSG_EMPTY : pystr := lit "Text cannot be empty".

Definition MSG_NO_QUERY : pystr :=
  lit "Please provide text using the " ++ dquote ++ lit "text" ++ dquote
    ++ lit " query parameter".

Definition MSG_FAILED : pystr :=
  lit "An error occurred during sentiment analysis: ".

(** The description werkzeug gives a [BadRequest] by default. *)
Definition bad_request_description : pystr :=
  lit "The browser (or proxy) sent a request that this server could not understand.".

Section Service.

Variable float : Type.

(** [bool(x)] on a float: [x != 0.0]. *)
Variable float_truthy : float -> bool.

(** The built-in [round(x, ndigits)] on a float. *)
Variable py_round : float -> Z -> float.

Variable model : Type.

Abbreviation value := (pyval float).

(** The pipeline object: called with a value, it answers with a value (a
    list of [{'label': ..., 'score': ...}] dicts, by its documentation) or
    raises, and may change its own state. *)
Variable pipeline : value -> model -> outcome value * model.

Abbreviation M := (M model value).

Local Open Scope py_scope.
Local Open Scope Z_scope.

(** ** Runtime operations

    The texts of the runtime's own exceptions are those of CPython 3.11 to
    3.13. *)

(** [bool(v)] *)
Definition truthy (v : value) : bool :=
  match v with
  | PNone => false
  | PBool b => b
  | PInt n => negb (Z.eqb n 0)
  | PFloat f => float_truthy f
  | PStr s => match s with [] => false | _ => true end
  | PList l => match l with [] => false | _ => true end
  | PDict d => match d with [] => false | _ => true end
  end.

Definition TypeError (msg : pystr) : exn := Exn "TypeError" msg.
Definition KeyError (msg : pystr) : exn := Exn "KeyError" msg.
Definition AttributeError (msg : pystr) : exn := Exn "AttributeError" msg.

(** [k in v] for a string [k] *)
Definition contains (v : value) (k : pystr) : M bool :=
  match v with
  | PDict d => ret (dict_has d k)
  | PList l => ret (existsb (eq_str k) l)
  | PStr s => ret (str_contains s k)
  | _ => raise (TypeError (lit "argument of type '" ++ type_name v
                             ++ lit "' is not iterable"))
  end.

(** [v[k]] for a string [k] (the key is plain: its [repr] is the key in
    single quotes) *)
Definition getitem (v : value) (k : pystr) : M value :=
  match v with
  | PDict d =>
      match dict_get d k with
      | Some x => ret x
      | None => raise (KeyError (lit "'" ++ k ++ lit "'"))
      end
  | PList _ =>
      raise (TypeError (lit "list indices must be integers or slices, not str"))
  | PStr _ =>
      raise (TypeError (lit "string indices must be integers, not 'str'"))
  | _ => raise (TypeError (lit "'" ++ type_name v
                             ++ lit "' object is not subscriptable"))
  end.

(** [v.strip()]: only [str] has the method. *)
Definition call_strip (v : value) : M value :=
  match v with
  | PStr s => ret (PStr (strip s))
  | _ => raise (AttributeError (lit "'" ++ type_name v
                                  ++ lit "' object has no attribute 'strip'"))
  end.

(** The items a [for] loop over [v] visits: the elements of a list, the
    keys of a dict, the characters of a string. *)
Definition iterate (v : value) : M (list value) :=
  match v with
  | PList l => ret l
  | PDict d => ret (map (fun kv => PStr (fst kv)) d)
  | PStr s => ret (map (fun c => PStr [c]) s)
  | _ => raise (TypeError (lit "'" ++ type_name v
                             ++ lit "' object is not iterable"))
  end.

(** [round(v, ndigits)] for [ndigits >= 0]: a float is rounded, an int
    (and a bool, as the int it is) rounds to itself. *)
Definition round_ (v : value) (ndigits : Z) : M value :=
  match v with
  | PFloat f => ret (PFloat (py_round f ndigits))
  | PInt n => ret (PInt n)
  | PBool b => ret (PInt (if b then 1 else 0))
  | _ => raise (TypeError (lit "type " ++ type_name v
                             ++ lit " doesn't define __round__ method"))
  end.

(** [sentiment_analyzer(text)]: the call is recorded in the world. *)
Definition sentiment_analyzer (text : value) : M value :=
  fun w =>
    let (r, m') := pipeline text (model_state w) in
    (r, World m' (calls w ++ [text])).

(** ** Flask *)

(** What the handlers read of a request: the outcome of
    [request.get_json()] and the query parameters [request.args].
    [get_json] answers with the decoded body; it answers [None] for the
    body [null] (and, before Flask 2.1, for a request whose content type
    is not JSON), and raises [BadRequest] when the body does not decode. *)
Record request : Type :=
  Request { get_json : outcome value; args : list (pystr * pystr) }.

Definition request_get_json (r : request) : M value :=
  fun w => (get_json r, w).

(** [request.args.get(key, default)] *)
Fixpoint args_get (a : list (pystr * pystr)) (key default : pystr) : pystr :=
  match a with
  | [] => default
  | (k, v) :: a' => if str_eqb k key then v else args_get a' key default
  end.

(** [werkzeug.exceptions.BadRequest]: [str(e)] is the status line
    followed by the description. *)
Definition BadRequest (description : pystr) : exn :=
  Exn "BadRequest" (lit "400 Bad Request: " ++ description).

(** [jsonify(v)]: the response carrying [v] as its JSON document. *)
Definition jsonify (v : value) : value := v.

Definition error_body (msg : pystr) : value :=
  PDict [(lit "error", PStr msg)].

(** ** Handlers *)

(** The [for result in results] loop of both handlers, over the items
    still to visit and the list [response['sentiment_results']] built so
    far. *)
Fixpoint for_result_in (results : list value) (sentiment_results : list value)
  : M (list value) :=
  match results with
  | [] => ret sentiment_results
  | result :: rest =>
      l <- getitem result (lit "label") ;;
      s <- getitem result (lit "score") ;;
      r <- round_ s 4 ;;
      for_result_in rest
        (sentiment_results ++ [PDict [(lit "label", l); (lit "score", r)]])
  end.

(** [POST /analyze] *)
Definition analyze_sentiment (req : request) : M (value * Z) :=
  try (
    data <- request_get_json req ;;
    missing <- (if negb (truthy data) then ret true
                else found <- contains data (lit "text") ;;
                     ret (negb found)) ;;
    if (missing : bool) then
      ret (jsonify (error_body MSG_NO_TEXT), 400)
    else
      text <- getitem data (lit "text") ;;
      stripped <- call_strip text ;;
      if negb (truthy stripped) then
        ret (jsonify (error_body MSG_EMPTY), 400)
      else
        results <- sentiment_analyzer text ;;
        items <- iterate results ;;
        sentiment_results <- for_result_in items [] ;;
        let response :=
          PDict [(lit "input_text", text);
                 (lit "sentiment_results", PList sentiment_results)] in
        ret (jsonify response, 200))
  except e =>
    ret (jsonify (error_body (MSG_FAILED ++ exn_str e)), 500).

(** [GET /analyze] *)
Definition analyze_sentiment_get (req : request) : M (value * Z) :=
  try (
    let text : value := PStr (args_get (args req) (lit "text") []) in
    stripped <- call_strip text ;;
    if negb (truthy stripped) then
      ret (jsonify (error_body MSG_NO_QUERY), 400)
    else
      results <- sentiment_analyzer text ;;
      items <- iterate results ;;
      sentiment_results <- for_result_in items [] ;;
      let response :=
        PDict [(lit "input_text", text);
               (lit "sentiment_results", PList sentiment_results)] in
      ret (jsonify response, 200))
  except e =>
    ret (jsonify (error_body (MSG_FAILED ++ exn_str e)), 500).

(** [GET /health] *)
Definition health_check (req : request) : M (value * Z) :=
  ret (jsonify (PDict [(lit "status", PStr (lit "healthy"));
                       (lit "service", PStr (lit "Sentiment Analysis API"));
                       (lit "model",
                        PStr (lit "cardiffnlp/twitter-roberta-base-sentiment-latest"))]),
       200).

(** ** Routing *)

(** The two [@app.route('/analyze', ...)] registrations. *)
Inductive route : Type :=
| PostAnalyze    (* methods=['POST'] *)
| GetAnalyze.    (* methods=['GET'] *)

Definition serve (r : route) : request -> M (value * Z) :=
  match r with
  | PostAnalyze => analyze_sentiment
  | GetAnalyze => analyze_sentiment_get
  end.

(** ** Vocabulary for the statements *)

(** The value a request submits as its text: the [text] field of a JSON
    object body for POST, the [text] query parameter (or its default) for
    GET. *)
Definition submitted (r : route) (req : request) : option value :=
  match r with
  | PostAnalyze =>
      match get_json req with
      | Returns (PDict d) => dict_get d (lit "text")
      | _ => None
      end
  | GetAnalyze => Some (PStr (args_get (args req) (lit "text") []))
  end.

(** The fixed message of the empty-text rejection, per route. *)
Definition empty_text_message (r : route) : pystr :=
  match r with
  | PostAnalyze => MSG_EMPTY
  | GetAnalyze => MSG_NO_QUERY
  end.

(** A [{label, score}] entry of the classifier's answer, read off a dict
    that has both fields, the score a float. *)
Record prediction : Type := Prediction { label : value; score : float }.

Definition as_prediction (e : value) : option prediction :=
  match e with
  | PDict d =>
      match dict_get d (lit "label"), dict_get d (lit "score") with
      | Some l, Some (PFloat s) => Some (Prediction l s)
      | _, _ => None
      end
  | _ => None
  end.

Fixpoint as_predictions (es : list value) : option (list prediction) :=
  match es with
  | [] => Some []
  | e :: es' =>
      match as_prediction e, as_predictions es' with
      | Some p, Some ps => Some (p :: ps)
      | _, _ => None
      end
  end.

(** One prediction as the response reports it. *)
Definition reported (p : prediction) : value :=
  PDict [(lit "label", label p);
         (lit "score", PFloat (py_round (score p) 4))].

Definition success_body (text : pystr) (rs : list prediction) : value :=
  PDict [(lit "input_text", PStr text);
         (lit "sentiment_results", PList (map reported rs))].

(** What either handler does with a text once it has passed the trim
    check: the call, the loop and the response, under the handler's
    [except]. *)
Definition classified (t : pystr) : M (value * Z) :=
  try (
    results <- sentiment_analyzer (PStr t) ;;
    items <- iterate results ;;
    sentiment_results <- for_result_in items [] ;;
    ret (PDict [(lit "input_text", PStr t);
                (lit "sentiment_results", PList sentiment_results)], 200))
  except e =>
    ret (error_body (MSG_FAILED ++ exn_str e), 500).

Definition is_str (v : value) : bool :=
  match v with PStr _ => true | _ => false end.

Definition status (r : outcome (value * Z) * world model value)
  : option Z :=
  match fst r with
  | Returns (_, st) => Some st
  | Raises _ => None
  end.

End Service.

Arguments error_body {float} msg.

(* ================================================================== *)
(** * A stand-in classifier *)
(* ================================================================== *)

(** A concrete instance to run the handlers on: scores are fixed-point
    decimals counted in millionths, the model state counts the calls made,
    and the stand-in pipeline fails on a text containing [crash]. *)
Module Fake.

Definition float := Z.

Definition float_truthy (x : float) : bool := negb (Z.eqb x 0).

(** Round half to even to a multiple of [q]. *)
Definition round_to (q x : Z) : Z :=
  let n := (x / q)%Z in
  let r := (x mod q)%Z in
  if (2 * r <? q)%Z then (n * q)%Z
  else if (q <? 2 * r)%Z then ((n + 1) * q)%Z
  else if Z.even n then (n * q)%Z else ((n + 1) * q)%Z.

Definition py_round (x : float) (ndigits : Z) : float :=
  if (6 <=? ndigits)%Z then x else round_to (10 ^ (6 - ndigits)) x.

Definition value := pyval float.

Definition positive : value :=
  PDict [(lit "label", PStr (lit "positive"));
         (lit "score", PFloat 987654%Z)].

Definition pipeline (text : value) (n : nat) : outcome value * nat :=
  match text with
  | PStr s =>
      if str_contains s (lit "crash")
      then (Raises (Exn "RuntimeError" (lit "out of memory")), S n)
      else (Returns (PList [positive]), S n)
  | _ => (Raises (Exn "ValueError" (lit "unsupported input")), S n)
  end.

(** A classifier that answers with no prediction at all. *)
Definition silent (text : value) (n : nat) : outcome value * nat :=
  (Returns (PList []), S n).

(** A classifier whose entries lack the score. *)
Definition scoreless (text : value) (n : nat) : outcome value * nat :=
  (Returns (PList [PDict [(lit "label", PStr (lit "positive"))]]), S n).

Definition w0 : world nat value := World 0 [].

Definition post (body : outcome value) : request float :=
  Request body [].

Definition post_text (t : pystr) : request float :=
  post (Returns (PDict [(lit "text", PStr t)])).

Definition get (query : list (pystr * pystr)) : request float :=
  Request (Returns PNone) query.

Definition serve := serve float_truthy py_round pipeline.

End Fake.

(* ================================================================== *)
(** * Reading answers and responses *)
(* ================================================================== *)

Section Answers.

Variable float : Type.

Abbreviation value := (pyval float).

(** A score [round(score, 4)] accepts: a float, an int, a bool. *)
Definition roundable (v : value) : bool :=
  match v with
  | PFloat _ | PInt _ | PBool _ => true
  | _ => false
  end.

(** A score as a response carries it: a float or an int. *)
Definition is_number (v : value) : bool :=
  match v with
  | PFloat _ | PInt _ => true
  | _ => false
  end.

(** An item of the classifier's answer the loop body gets through: a dict
    with a [label] and a [score] that [round] accepts. *)
Definition entry_ok (e : value) : bool :=
  match e with
  | PDict d =>
      dict_has d (lit "label") &&
      match dict_get d (lit "score") with
      | Some s => roundable s
      | None => false
      end
  | _ => false
  end.

(** An answer the loop gets through: a list of such items, or a dict or
    string with nothing to visit. *)
Definition answer_ok (v : value) : bool :=
  match v with
  | PList l => forallb entry_ok l
  | PDict d => match d with [] => true | _ => false end
  | PStr s => match s with [] => true | _ => false end
  | _ => false
  end.

Definition is_dict (v : value) : bool :=
  match v with PDict _ => true | _ => false end.

(** An entry of [sentiment_results]: exactly the fields [label] and
    [score], in this order, the score a number. *)
Definition is_result_entry (o : value) : bool :=
  match o with
  | PDict [(k1, _); (k2, s)] =>
      str_eqb k1 (lit "label") && str_eqb k2 (lit "score") && is_number s
  | _ => false
  end.

(** The body of a response, when the handler returned one. *)
Definition response_body {model : Type}
    (r : outcome (value * Z) * world model value) : option value :=
  match fst r with
  | Returns (b, _) => Some b
  | Raises _ => None
  end.

End Answers.

Arguments roundable {float} v.
Arguments is_number {float} v.
Arguments entry_ok {float} e.
Arguments answer_ok {float} v.
Arguments is_dict {float} v.
Arguments is_result_entry {float} o.

(* ================================================================== *)
(** * The information document and the routes *)
(* ================================================================== *)

Section Home.

Variable float : Type.
Variable model : Type.

Abbreviation value := (pyval float).
Abbreviation M := (M model value).

Local Open Scope Z_scope.

(** [GET /] of [app.py] *)
Definition home (req : request float) : M (value * Z) :=
  ret (jsonify
         (PDict
            [(lit "message", PStr (lit "Sentiment Analysis API"));
             (lit "version", PStr (lit "1.0"));
             (lit "endpoints",
              PDict
                [(lit "POST /analyze",
                  PStr (lit "Analyze sentiment from JSON payload"));
                 (lit "GET /analyze",
                  PStr (lit "Analyze sentiment from query parameter"));
                 (lit "GET /health", PStr (lit "Health check"))]);
             (lit "usage_examples",
              PDict
                [(lit "POST",
                  PStr (lit "curl -X POST https://your-app.onrender.com/analyze -H "
                          ++ dquote ++ lit "Content-Type: application/json"
                          ++ dquote ++ lit " -d '{" ++ dquote ++ lit "text"
                          ++ dquote ++ lit ":" ++ dquote
                          ++ lit "I love this!" ++ dquote ++ lit "}'"));
                 (lit "GET",
                  PStr (lit "curl " ++ dquote
                          ++ lit "https://your-app.onrender.com/analyze?text=I%20love%20this!"
                          ++ dquote));
                 (lit "health",
                  PStr (lit "curl https://your-app.onrender.com/health"))])]),
       200).

(** [GET /] of [main.py] *)
Definition main_home (req : request float) : M (value * Z) :=
  ret (jsonify
         (PDict
            [(lit "message", PStr (lit "Sentiment Analysis API"));
             (lit "version", PStr (lit "1.0"));
             (lit "endpoints",
              PDict
                [(lit "POST /analyze",
                  PStr (lit "Analyze sentiment from JSON payload"));
                 (lit "GET /analyze",
                  PStr (lit "Analyze sentiment from query parameter"));
                 (lit "GET /health", PStr (lit "Health check"))]);
             (lit "usage_examples",
              PDict
                [(lit "POST",
                  PStr (lit "curl -X POST http://localhost:5000/analyze -H "
                          ++ dquote ++ lit "Content-Type: application/json"
                          ++ dquote ++ lit " -d '{" ++ dquote ++ lit "text"
                          ++ dquote ++ lit ":" ++ dquote
                          ++ lit "I love this!" ++ dquote ++ lit "}'"));
                 (lit "GET",
                  PStr (lit "curl " ++ dquote
                          ++ lit "http://localhost:5000/analyze?text=I%20love%20this!"
                          ++ dquote));
                 (lit "health",
                  PStr (lit "curl http://localhost:5000/health"))])]),
       200).

(** The view functions the module registers. *)
Inductive view_function : Type :=
| view_home
| view_analyze_sentiment
| view_analyze_sentiment_get
| view_health_check.

(** The [@app.route(rule, methods=[...])] decorators, in source order. *)
Definition url_map : list (pystr * list pystr * view_function) :=
  [(lit "/", [lit "GET"], view_home);
   (lit "/analyze", [lit "POST"], view_analyze_sentiment);
   (lit "/analyze", [lit "GET"], view_analyze_sentiment_get);
   (lit "/health", [lit "GET"], view_health_check)].

(** The view registered for a method and a path, if there is one. *)
Definition match_rule (method path : pystr) : option view_function :=
  match find (fun rule =>
                str_eqb (fst (fst rule)) path &&
                existsb (str_eqb method) (snd (fst rule)))
             url_map with
  | Some rule => Some (snd rule)
  | None => None
  end.

(** [s] cut at its first space. *)
Fixpoint cut_at_space (s : pystr) : option (pystr * pystr) :=
  match s with
  | [] => None
  | c :: s' =>
      if N.eqb c 32 then Some ([], s')
      else match cut_at_space s' with
           | Some (a, b) => Some (c :: a, b)
           | None => None
           end
  end.

(** The [endpoints] table of an information document. *)
Definition endpoints_of (doc : value) : list (pystr * value) :=
  match doc with
  | PDict d =>
      match dict_get d (lit "endpoints") with
      | Some (PDict eps) => eps
      | _ => []
      end
  | _ => []
  end.

(** A key [METHOD PATH] of the table names a registered rule other than
    the document's own. *)
Definition names_a_route (key : pystr) : bool :=
  match cut_at_space key with
  | Some (method, path) =>
      match match_rule method path with
      | Some view_home | None => false
      | Some _ => true
      end
  | None => false
  end.

(** A rule is listed in the table, under each of its methods. *)
Definition listed_in (eps : list (pystr * value))
    (rule : pystr * list pystr * view_function) : bool :=
  forallb (fun method => dict_has eps (method ++ lit " " ++ fst (fst rule)))
          (snd (fst rule)).

Definition is_view_home (v : view_function) : bool :=
  match v with view_home => true | _ => false end.

End Home.

(* ================================================================== *)
(** * Start-up *)
(* ================================================================== *)

Section Startup.

(** [int(s)] on a [str]. *)
Variable py_int : pystr -> outcome Z.

(** [s.lower()] on a string with a code point outside ASCII. *)
Variable unicode_lower : pystr -> pystr.

Definition is_ascii (s : pystr) : bool := forallb (fun c => (c <? 128)%N) s.

Definition ascii_lower (c : N) : N :=
  if ((65 <=? c) && (c <=? 90))%N then (c + 32)%N else c.

(** [s.lower()] *)
Definition lower (s : pystr) : pystr :=
  if is_ascii s then map ascii_lower s else unicode_lower s.

(** [str(n)] on an int, [str(b)] on a bool. *)
Definition str_int (n : Z) : pystr := lit (NilZero.string_of_int (Z.to_int n)).

Definition str_bool (b : bool) : pystr :=
  if b then lit "True" else lit "False".

(** [os.environ], and [os.environ.get(key)]. *)
Definition environ : Type := list (pystr * pystr).

Fixpoint environ_get (env : environ) (key : pystr) : option pystr :=
  match env with
  | [] => None
  | (k, v) :: env' => if str_eqb k key then Some v else environ_get env' key
  end.

(** What a start-up block does when it gets as far as [app.run]: the
    lines printed, and the arguments of the call ([debug] only when it is
    passed). *)
Record started : Type :=
  Started { stdout : list pystr;
            run_host : pystr;
            run_port : Z;
            run_debug : option bool }.

(** [int(os.environ.get('PORT', 5000))] *)
Definition port_from (env : environ) : outcome Z :=
  match environ_get env (lit "PORT") with
  | Some s => py_int s
  | None => Returns 5000%Z
  end.

(** The [__main__] block of [app.py]. *)
Definition app_main (env : environ) : outcome started :=
  match port_from env with
  | Raises e => Raises e
  | Returns port =>
      Returns (Started [lit "Starting server on port " ++ str_int port]
                       (lit "0.0.0.0") port None)
  end.

(** The [__main__] block of [main.py]. *)
Definition main_main (env : environ) : outcome started :=
  match port_from env with
  | Raises e => Raises e
  | Returns port =>
      let host :=
        match environ_get env (lit "HOST") with
        | Some h => h
        | None => lit "127.0.0.1"
        end in
      let debug :=
        str_eqb (lower (match environ_get env (lit "DEBUG") with
                        | Some d => d
                        | None => lit "False"
                        end))
                (lit "true") in
      Returns
        (Started
           [lit "Starting Sentiment Analysis API on " ++ host ++ lit ":"
              ++ str_int port;
            lit "Debug mode: " ++ str_bool debug;
            lit "Available endpoints:";
            lit "  GET  /          - API information";
            lit "  POST /analyze   - Analyze sentiment from JSON payload";
            lit "  GET  /analyze   - Analyze sentiment from query parameter";
            lit "  GET  /health    - Health check"]
           host port (Some debug))
  end.

(** [v] is [word] up to the case of its letters ([word] in lower case). *)
Fixpoint case_variant (v word : pystr) : bool :=
  match v, word with
  | [], [] => true
  | c :: v', x :: word' =>
      (N.eqb c x || N.eqb (c + 32) x && N.leb 65 c && N.leb c 90)
        && case_variant v' word'
  | _, _ => false
  end.

Definition port_of (r : outcome started) : outcome Z :=
  match r with
  | Returns s => Returns (run_port s)
  | Raises e => Raises e
  end.

End Startup.

(** Stand-ins for the runtime at start-up: [int] on plain decimal digits,
    and a [lower] that leaves non-ASCII strings alone. *)
Module Stub.

Fixpoint digits (s : pystr) (acc : Z) : option Z :=
  match s with
  | [] => Some acc
  | c :: s' =>
      if ((48 <=? c) && (c <=? 57))%N
      then digits s' (10 * acc + Z.of_N (c - 48))%Z
      else None
  end.

Definition py_int (s : pystr) : outcome Z :=
  match s with
  | [] => Raises (Exn "ValueError" (lit "invalid literal for int()"))
  | _ =>
      match digits s 0 with
      | Some n => Returns n
      | None => Raises (Exn "ValueError" (lit "invalid literal for int()"))
      end
  end.

Definition unicode_lower (s : pystr) : pystr := s.

(** A classifier whose second item is not a dict. *)
Definition mixed (text : Fake.value) (n : nat) : outcome Fake.value * nat :=
  (Returns (PList [Fake.positive; PStr (lit "negative")]), S n).

Definition env1 : environ :=
  [(lit "PORT", lit "8080"); (lit "HOST", lit "0.0.0.0");
   (lit "DEBUG", lit "TrUe")].

End Stub.

(* ================================================================== *)
(** * Properties *)
(* ================================================================== *)

Section Properties.

Variable float : Type.
Variable float_truthy : float -> bool.
Variable py_round : float -> Z -> float.
Variable model : Type.

Abbreviation value := (pyval float).

Variable pipeline : value -> model -> outcome value * model.

Abbreviation serve := (serve float_truthy py_round pipeline).
Abbreviation POST := (analyze_sentiment float_truthy py_round pipeline).
Abbreviation GET := (analyze_sentiment_get float_truthy py_round pipeline).
Abbreviation classified := (classified py_round pipeline).
Abbreviation loop := (@for_result_in float py_round model).
Abbreviation reported := (reported py_round).
Abbreviation success_body := (success_body py_round).
Abbreviation state := (world model value).

Local Open Scope Z_scope.

(** ** Strings and dicts *)

Lemma dict_get_truthy (d : list (pystr * value)) k v :
  dict_get d k = Some v ->
  truthy float_truthy (PDict d) = true /\ dict_has d k = true.
Proof.
  intros H. split.
  - destruct d; [discriminate H | reflexivity].
  - unfold dict_has. now rewrite H.
Qed.

Lemma args_get_absent (a : list (pystr * pystr)) key default :
  (forall k v, In (k, v) a -> str_eqb k key = false) ->
  args_get a key default = default.
Proof.
  induction a as [|[k v] a IH]; intros H; simpl; [reflexivity|].
  rewrite (H k v (or_introl eq_refl)).
  apply IH. intros k' v' Hin. apply (H k' v'). now right.
Qed.

Lemma absent_parameter_submits_empty (req : request float) :
  (forall k v, In (k, v) (args req) -> str_eqb k (lit "text") = false) ->
  submitted GetAnalyze req = Some (PStr []).
Proof.
  intros H. simpl.
  now rewrite (@args_get_absent (args req) (lit "text") [] H).
Qed.

(** ** The result loop *)

(** Subscripting and rounding do not touch the world. *)
Lemma getitem_frame (v : value) k (w : state) : snd (getitem v k w) = w.
Proof.
  destruct v; try reflexivity.
  cbn. now destruct (dict_get d k).
Qed.

Lemma round_frame (v : value) n (w : state) :
  snd (round_ py_round v n w) = w.
Proof. now destruct v. Qed.

(** The loop does not touch the world. *)
Lemma for_result_in_frame (es acc : list value) (w : state) :
  snd (loop es acc w) = w.
Proof.
  revert acc. induction es as [|e es IH]; intros acc; [reflexivity|].
  cbn [for_result_in]. unfold bind.
  pose proof (getitem_frame e (lit "label") w) as Fl.
  destruct (getitem e (lit "label") w) as [[l|x] w1];
    simpl in Fl; subst w1; [|reflexivity].
  pose proof (getitem_frame e (lit "score") w) as Fs.
  destruct (getitem e (lit "score") w) as [[s|x] w1];
    simpl in Fs; subst w1; [|reflexivity].
  pose proof (round_frame s 4 w) as Fr.
  destruct (round_ py_round s 4 w) as [[r|x] w1];
    simpl in Fr; subst w1; [apply IH | reflexivity].
Qed.

(** On well-formed entries the loop appends one reported entry per
    prediction, in order. *)
Lemma for_result_in_predictions (es : list value) rs (acc : list value)
    (w : state) :
  as_predictions es = Some rs ->
  loop es acc w = (Returns (acc ++ map reported rs), w).
Proof.
  revert rs acc. induction es as [|e es IH]; intros rs acc H.
  - injection H as <-. cbn. now rewrite app_nil_r.
  - cbn [as_predictions] in H.
    destruct (as_prediction e) as [p|] eqn:Hp; [|discriminate].
    destruct (as_predictions es) as [ps|] eqn:Hps; [|discriminate].
    injection H as <-.
    destruct e as [| | | | | |d]; try discriminate.
    cbn [as_prediction] in Hp.
    destruct (dict_get d (lit "label")) as [l|] eqn:Hl; [|discriminate].
    destruct (dict_get d (lit "score")) as [[| | |s| | |]|] eqn:Hsc;
      try discriminate.
    injection Hp as <-.
    cbn [for_result_in getitem]. unfold bind.
    rewrite Hl, Hsc. cbn [ret round_].
    rewrite (IH ps _ eq_refl). cbn [map label score].
    unfold reported. cbn [label score].
    now rewrite <- app_assoc.
Qed.

(** ** Past validation *)

Lemma classified_returns (t : pystr) (w : state) es rs m' :
  pipeline (PStr t) (model_state w) = (Returns (PList es), m') ->
  as_predictions es = Some rs ->
  classified t w =
    (Returns (success_body t rs, 200), World m' (calls w ++ [PStr t])).
Proof.
  intros Hp Hes.
  unfold classified, try_except, bind, sentiment_analyzer.
  rewrite Hp. cbn [iterate ret].
  now rewrite (for_result_in_predictions _ _ _ Hes).
Qed.

Lemma classified_raises (t : pystr) (w : state) e m' :
  pipeline (PStr t) (model_state w) = (Raises e, m') ->
  classified t w =
    (Returns (error_body (MSG_FAILED ++ exn_str e), 500),
     World m' (calls w ++ [PStr t])).
Proof.
  intros Hp.
  unfold classified, try_except, bind, sentiment_analyzer.
  now rewrite Hp.
Qed.

(** A classification ends with status 200 or with a wrapped exception,
    and has called the classifier once. *)
Lemma classified_cases (t : pystr) (w : state) :
  exists body st w',
    classified t w = (Returns (body, st), w') /\
    calls w' = calls w ++ [PStr t] /\
    (st = 200 \/ st = 500 /\ exists msg, body = error_body msg).
Proof.
  unfold classified, try_except, bind, sentiment_analyzer.
  destruct (pipeline (PStr t) (model_state w)) as [[results|e] m'].
  2:{ do 3 eexists. split; [reflexivity|]. split; [reflexivity|].
      right. split; [reflexivity | now eexists]. }
  set (w1 := World m' (calls w ++ [PStr t])).
  destruct (iterate results w1) as [[items|e] w2] eqn:Hi.
  - assert (w2 = w1) as ->.
    { destruct results; cbn in Hi; now injection Hi as _ <-. }
    pose proof (for_result_in_frame items [] w1) as F.
    destruct (loop items [] w1) as [[out|e] w3]; simpl in F; subst w3.
    + do 3 eexists. split; [reflexivity|]. split; [reflexivity | now left].
    + do 3 eexists. split; [reflexivity|]. split; [reflexivity|].
      right. split; [reflexivity | now eexists].
  - assert (w2 = w1) as ->.
    { destruct results; cbn in Hi; now injection Hi as _ <-. }
    do 3 eexists. split; [reflexivity|]. split; [reflexivity|].
    right. split; [reflexivity | now eexists].
Qed.

(** Both handlers hand a text that passes the trim check to the same
    continuation. *)
Lemma serve_valid (r : route) (req : request float) (w : state) t :
  submitted r req = Some (PStr t) ->
  strip t <> [] ->
  serve r req w = classified t w.
Proof.
  intros Hsub Hne.
  assert (Ht : truthy float_truthy (PStr (strip t)) = true).
  { destruct (strip t); [congruence | reflexivity]. }
  destruct r; simpl in Hsub.
  - destruct (get_json req) as [data|e] eqn:Hj; [|discriminate].
    destruct data; try discriminate.
    destruct (dict_get_truthy _ _ Hsub) as [Hd Hk].
    unfold serve, analyze_sentiment, classified, try_except, bind,
      request_get_json.
    rewrite Hj. cbn [ret]. rewrite Hd. cbn [negb contains ret].
    rewrite Hk. cbn [negb getitem]. rewrite Hsub.
    cbn [call_strip ret]. rewrite Ht. reflexivity.
  - injection Hsub as Hsub.
    unfold serve, analyze_sentiment_get, classified, try_except, bind.
    rewrite Hsub. cbn [call_strip ret]. rewrite Ht. reflexivity.
Qed.

(** Every request to an analyse route ends in one of three ways: a
    rejection that leaves the world as it was, a wrapped exception raised
    before the classifier is reached, or a classification. *)
Lemma serve_cases (r : route) (req : request float) (w : state) :
  (exists msg, serve r req w = (Returns (error_body msg, 400), w)) \/
  (exists msg, serve r req w = (Returns (error_body msg, 500), w)) \/
  (exists t, submitted r req = Some (PStr t) /\ strip t <> [] /\
             serve r req w = classified t w).
Proof.
  destruct r.
  - (* POST *)
    destruct (get_json req) as [data|e] eqn:Hj.
    2:{ right; left. eexists.
        unfold serve, analyze_sentiment, try_except, bind, request_get_json.
        rewrite Hj. reflexivity. }
    destruct (submitted PostAnalyze req) as [v|] eqn:Hsub.
    + simpl in Hsub. rewrite Hj in Hsub.
      destruct data as [| | | | | |d]; try discriminate.
      destruct (dict_get_truthy _ _ Hsub) as [Hd Hk].
      destruct (is_str v) eqn:Hv.
      * destruct v as [| | | |t| |]; try discriminate.
        destruct (strip t) as [|c u] eqn:Hs.
        -- left. eexists.
           unfold serve, analyze_sentiment, try_except, bind,
             request_get_json.
           rewrite Hj. cbn [ret]. rewrite Hd. cbn [negb contains ret].
           rewrite Hk. cbn [negb getitem]. rewrite Hsub.
           cbn [ret call_strip]. rewrite Hs. reflexivity.
        -- right; right. exists t. split; [reflexivity | split].
           ++ congruence.
           ++ apply serve_valid; [simpl; now rewrite Hj | congruence].
      * right; left. eexists.
        unfold serve, analyze_sentiment, try_except, bind,
          request_get_json.
        rewrite Hj. cbn [ret]. rewrite Hd. cbn [negb contains ret].
        rewrite Hk. cbn [negb getitem]. rewrite Hsub.
        destruct v; try discriminate; reflexivity.
    + simpl in Hsub. rewrite Hj in Hsub.
      unfold serve, analyze_sentiment, try_except, bind, request_get_json.
      rewrite Hj. cbn [ret].
      destruct data as [|[|]|n|f|[|c s]|[|x l]|[|kv d]];
        cbn [truthy negb contains ret raise];
        try (left; eexists; reflexivity);
        try (right; left; eexists; reflexivity).
      * destruct (Z.eqb n 0); cbn [negb];
          [left | right; left]; eexists; reflexivity.
      * destruct (float_truthy f); cbn [negb];
          [right; left | left]; eexists; reflexivity.
      * destruct (str_contains (c :: s) (lit "text")); cbn [negb getitem raise];
          [right; left | left]; eexists; reflexivity.
      * destruct (existsb (eq_str (lit "text")) (x :: l));
          cbn [negb getitem raise];
          [right; left | left]; eexists; reflexivity.
      * unfold dict_has. rewrite Hsub. left; eexists; reflexivity.
  - (* GET *)
    set (t := args_get (args req) (lit "text") []).
    destruct (strip t) as [|c u] eqn:Hs.
    + left. eexists.
      unfold serve, analyze_sentiment_get, try_except, bind.
      fold t. cbn [call_strip ret]. rewrite Hs. reflexivity.
    + right; right. exists t. split; [reflexivity | split].
      * congruence.
      * apply serve_valid; [reflexivity | congruence].
Qed.

(** ** The claims *)

(** C1.  A POST /analyze request whose JSON object carries a string
    [text] that is non-empty after trimming, and on which the classifier
    answers with a list of [{label, score}] entries, gets status 200 and
    the body [{input_text: text, sentiment_results: [...]}]: the text
    echoed and handed to the classifier untrimmed, one entry per entry of
    the classifier in its order, the label as it came and the score as
    [round(score, 4)]. *)
Theorem post_analyze_success
    (req : request float) (w : state) d (t : pystr) es rs m' :
  get_json req = Returns (PDict d) ->
  dict_get d (lit "text") = Some (PStr t) ->
  strip t <> [] ->
  pipeline (PStr t) (model_state w) = (Returns (PList es), m') ->
  as_predictions es = Some rs ->
  POST req w =
    (Returns
       (PDict [(lit "input_text", PStr t);
               (lit "sentiment_results",
                PList (map (fun p =>
                              PDict [(lit "label", label p);
                                     (lit "score",
                                      PFloat (py_round (score p) 4))])
                           rs))],
        200),
     World m' (calls w ++ [PStr t])).
Proof.
  intros Hj Hd Hs Hp Hes.
  change (POST req w) with (serve PostAnalyze req w).
  rewrite (@serve_valid PostAnalyze req w t);
    [| simpl; now rewrite Hj | exact Hs].
  now rewrite (@classified_returns t w es rs m' Hp Hes).
Qed.

(** C2, as amended.  When [request.get_json()] answers [None] (no JSON
    document, or the document [null]) or a JSON object without a [text]
    field, POST /analyze answers 400 with the fixed message; when it
    raises, as it does on a body that is not valid JSON, the answer is
    the 500 wrapped-exception response. *)
Theorem post_body_without_text (req : request float) (w : state) :
  (forall data,
      get_json req = Returns data ->
      data = PNone \/
        (exists d, data = PDict d /\ dict_has d (lit "text") = false) ->
      POST req w = (Returns (error_body MSG_NO_TEXT, 400), w)) /\
  (forall e,
      get_json req = Raises e ->
      POST req w = (Returns (error_body (MSG_FAILED ++ exn_str e), 500), w)).
Proof.
  split.
  - intros data Hj [-> | [d [-> Hk]]];
      unfold analyze_sentiment, try_except, bind, request_get_json;
      rewrite Hj; [reflexivity|].
    cbn [ret]. destruct d as [|kv d]; [reflexivity|].
    cbn [truthy negb contains ret]. now rewrite Hk.
  - intros e Hj.
    unfold analyze_sentiment, try_except, bind, request_get_json.
    now rewrite Hj.
Qed.

(** C3.  When the classifier raises on the text of a request, on either
    analyse route, the handler returns (it does not raise) status 500
    with the body [{error: "An error occurred during sentiment
    analysis: " + str(e)}]. *)
Theorem classifier_exception_is_500
    (r : route) (req : request float) (w : state) (t : pystr) e m' :
  submitted r req = Some (PStr t) ->
  strip t <> [] ->
  pipeline (PStr t) (model_state w) = (Raises e, m') ->
  serve r req w =
    (Returns (error_body (MSG_FAILED ++ exn_str e), 500),
     World m' (calls w ++ [PStr t])).
Proof.
  intros Hsub Hs Hp.
  rewrite (serve_valid _ _ w Hsub Hs).
  now apply classified_raises.
Qed.

(** C4.  A request to either analyse route whose text is empty after
    trimming (for GET the text is the query parameter, or the empty
    string when there is none) gets status 400 with the message of the
    route. *)
Theorem empty_text_rejected
    (r : route) (req : request float) (w : state) (t : pystr) :
  submitted r req = Some (PStr t) ->
  strip t = [] ->
  serve r req w = (Returns (error_body (empty_text_message r), 400), w).
Proof.
  intros Hsub Hs.
  destruct r; simpl in Hsub.
  - destruct (get_json req) as [[| | | | | |d]|e] eqn:Hj; try discriminate.
    destruct (dict_get_truthy _ _ Hsub) as [Hd Hk].
    unfold serve, analyze_sentiment, try_except, bind, request_get_json.
    rewrite Hj. cbn [ret]. rewrite Hd. cbn [negb contains ret].
    rewrite Hk. cbn [negb getitem]. rewrite Hsub.
    cbn [ret call_strip]. now rewrite Hs.
  - injection Hsub as Hsub.
    unfold serve, analyze_sentiment_get, try_except, bind.
    rewrite Hsub. cbn [call_strip ret]. now rewrite Hs.
Qed.

(** C5.  A request to either analyse route that is answered with status
    400 leaves the world as it found it: the classifier was not called
    (the call log is the same) and its state is untouched. *)
Theorem rejected_request_never_classifies
    (r : route) (req : request float) (w : state) :
  status (serve r req w) = Some 400 ->
  snd (serve r req w) = w.
Proof.
  intros Hst.
  destruct (serve_cases r req w) as [[msg H] | [[msg H] | [t [_ [_ H]]]]];
    rewrite H in *; try reflexivity.
  destruct (classified_cases t w) as [body [st [w' [Hc [_ Hcases]]]]].
  rewrite Hc in Hst. unfold status in Hst. simpl in Hst.
  destruct Hcases as [-> | [-> _]]; discriminate.
Qed.

(** C6.  Past validation the two entry points agree: for a text that is
    non-empty after trimming, GET /analyze with the text as query
    parameter and POST /analyze with the text in the JSON body give the
    same response, success or wrapped exception, and leave the same
    world. *)
Theorem get_post_agree
    (post get : request float) (w : state) (t : pystr) :
  submitted PostAnalyze post = Some (PStr t) ->
  submitted GetAnalyze get = Some (PStr t) ->
  strip t <> [] ->
  GET get w = POST post w.
Proof.
  intros Hp Hg Hs.
  change (serve GetAnalyze get w = serve PostAnalyze post w).
  now rewrite (serve_valid _ _ w Hp Hs), (serve_valid _ _ w Hg Hs).
Qed.

(** C7.  Every response of an analyse route is returned, with status
    200, 400 or 500; with status 400 or 500 its body is a JSON object
    with the single field [error], a string. *)
Theorem error_responses_uniform
    (r : route) (req : request float) (w : state) :
  exists body st,
    fst (serve r req w) = Returns (body, st) /\
    (st = 200 \/
     ((st = 400 \/ st = 500) /\
      exists msg : pystr, body = PDict [(lit "error", PStr msg)])).
Proof.
  destruct (serve_cases r req w) as [[msg H] | [[msg H] | [t [_ [_ H]]]]];
    rewrite H.
  - exists (error_body msg), 400. split; [reflexivity|].
    right. split; [now left | now exists msg].
  - exists (error_body msg), 500. split; [reflexivity|].
    right. split; [now right | now exists msg].
  - destruct (classified_cases t w) as [body [st [w' [Hc [_ Hcases]]]]].
    rewrite Hc. exists body, st. split; [reflexivity|].
    destruct Hcases as [-> | [-> [msg ->]]]; [now left|].
    right. split; [now right | now exists msg].
Qed.

(** C8.  GET /health returns status 200 with the fixed body, whose
    [model] field is the identifier the pipeline was created with,
    whatever the state of the classifier; it leaves the world as it was
    (no call of the classifier) and does not raise. *)
Theorem health_always_healthy (req : request float) (w : state) :
  health_check req w =
    (Returns (PDict [(lit "status", PStr (lit "healthy"));
                     (lit "service", PStr (lit "Sentiment Analysis API"));
                     (lit "model", PStr model_name)],
              200),
     w).
Proof. reflexivity. Qed.

(** C9, as amended.  For a text that is non-empty after trimming, on
    which the classifier answers with a list of [{label, score}]
    entries, POST /analyze with body [{text: t}] gets status 200 and its
    sentiment results have one entry per entry of the classifier (so
    they are non-empty when the classifier's answer is), each score
    being [round(score, 4)]. *)
Theorem post_nonblank_text_results
    (w : state) (t : pystr) es rs m' :
  strip t <> [] ->
  pipeline (PStr t) (model_state w) = (Returns (PList es), m') ->
  as_predictions es = Some rs ->
  exists out,
    fst (POST (Request (Returns (PDict [(lit "text", PStr t)])) []) w) =
      Returns (PDict [(lit "input_text", PStr t);
                      (lit "sentiment_results", PList out)], 200) /\
    List.length out = List.length es /\
    (es <> [] -> out <> []) /\
    Forall2 (fun p o =>
               exists l, o = PDict [(lit "label", l);
                                    (lit "score",
                                     PFloat (py_round (score p) 4))])
            rs out.
Proof.
  intros Hs Hp Hes.
  exists (map reported rs).
  change (POST ?r w) with (serve PostAnalyze r w).
  rewrite (@serve_valid PostAnalyze _ w t); [| reflexivity | exact Hs].
  rewrite (@classified_returns t w es rs m' Hp Hes).
  assert (Hlen : List.length rs = List.length es).
  { clear Hp. revert rs Hes. induction es as [|e es IH]; intros rs Hes.
    - now injection Hes as <-.
    - cbn [as_predictions] in Hes.
      destruct (as_prediction e); [|discriminate].
      destruct (as_predictions es) as [ps|]; [|discriminate].
      injection Hes as <-. simpl. now rewrite (IH ps eq_refl). }
  split; [reflexivity|].
  split; [now rewrite length_map|].
  split.
  - intros Hne Hout. apply Hne.
    destruct es; [reflexivity|].
    destruct rs; [discriminate Hlen | discriminate Hout].
  - clear. induction rs as [|p rs IH]; simpl; constructor;
      [now eexists | exact IH].
Qed.

(** C10.  A POST /analyze request whose JSON object has a [text] that
    is not a string gets the 500 wrapped-exception response, not a 400:
    [strip] is looked up on a value that has no such method.  The
    classifier is not called. *)
Theorem post_non_string_text_is_500
    (req : request float) (w : state) d (v : value) :
  get_json req = Returns (PDict d) ->
  dict_get d (lit "text") = Some v ->
  is_str v = false ->
  POST req w =
    (Returns
       (error_body (MSG_FAILED ++ lit "'" ++ type_name v
                      ++ lit "' object has no attribute 'strip'"),
        500),
     w).
Proof.
  intros Hj Hsub Hv.
  destruct (dict_get_truthy _ _ Hsub) as [Hd Hk].
  unfold analyze_sentiment, try_except, bind, request_get_json.
  rewrite Hj. cbn [ret]. rewrite Hd. cbn [negb contains ret].
  rewrite Hk. cbn [negb getitem]. rewrite Hsub.
  destruct v; try discriminate; reflexivity.
Qed.

End Properties.

(* ================================================================== *)
(** * Runs on the stand-in classifier *)
(* ================================================================== *)

Example strip_both_ends : strip (lit "  I love this! ") = lit "I love this!".
Proof. reflexivity. Qed.

Example strip_keeps_inner : strip (lit "a b") = lit "a b".
Proof. reflexivity. Qed.

Example strip_blank : strip (lit "   ") = [] /\ strip [9; 10; 160; 8195]%N = [].
Proof. split; reflexivity. Qed.

Example round_half_even :
  (Fake.py_round 987654 4 = 987700 /\ Fake.py_round 987650 4 = 987600 /\
   Fake.py_round 987750 4 = 987800)%Z.
Proof. repeat split; reflexivity. Qed.

(** The handler reports what the classifier gives: no prediction, no
    entry. *)
Example silent_classifier_empty_results :
  analyze_sentiment Fake.float_truthy Fake.py_round Fake.silent
    (Fake.post_text (lit "ok")) Fake.w0 =
    (Returns (PDict [(lit "input_text", PStr (lit "ok"));
                     (lit "sentiment_results", PList [])], 200%Z),
     World 1 [PStr (lit "ok")]).
Proof. reflexivity. Qed.

(** An entry without a score stops the loop with [KeyError('score')],
    reported as any other exception. *)
Example scoreless_classifier_is_500 :
  analyze_sentiment_get Fake.float_truthy Fake.py_round Fake.scoreless
    (Fake.get [(lit "text", lit "ok")]) Fake.w0 =
    (Returns (error_body (MSG_FAILED ++ lit "'score'"), 500%Z),
     World 1 [PStr (lit "ok")]).
Proof. reflexivity. Qed.

(** Bodies that are not JSON objects: a falsy one is taken as a missing
    body, a truthy scalar breaks the [in] test, and a string or list that
    holds [text] breaks the subscript. *)
Example post_scalar_bodies :
  status (Fake.serve PostAnalyze (Fake.post (Returns (PInt 0))) Fake.w0)
    = Some 400%Z /\
  status (Fake.serve PostAnalyze (Fake.post (Returns (PInt 5))) Fake.w0)
    = Some 500%Z /\
  status (Fake.serve PostAnalyze
            (Fake.post (Returns (PStr (lit "some text")))) Fake.w0)
    = Some 500%Z /\
  status (Fake.serve PostAnalyze
            (Fake.post (Returns (PList [PStr (lit "text")]))) Fake.w0)
    = Some 500%Z /\
  status (Fake.serve PostAnalyze
            (Fake.post (Returns (PList [PStr (lit "other")]))) Fake.w0)
    = Some 400%Z.
Proof. repeat split; reflexivity. Qed.

Lemma post_analyze_success_witness :
  analyze_sentiment Fake.float_truthy Fake.py_round Fake.pipeline
    (Fake.post_text (lit " I love this!")) Fake.w0 =
    (Returns
       (PDict [(lit "input_text", PStr (lit " I love this!"));
               (lit "sentiment_results",
                PList [PDict [(lit "label", PStr (lit "positive"));
                              (lit "score", PFloat 987700%Z)]])],
        200%Z),
     World 1 [PStr (lit " I love this!")]).
Proof.
  apply (@post_analyze_success Fake.float Fake.float_truthy Fake.py_round
           nat Fake.pipeline (Fake.post_text (lit " I love this!")) Fake.w0
           [(lit "text", PStr (lit " I love this!"))] (lit " I love this!")
           [Fake.positive]
           [Prediction (PStr (lit "positive")) 987654%Z] 1).
  - reflexivity.
  - reflexivity.
  - vm_compute. discriminate.
  - reflexivity.
  - reflexivity.
Defined.

Lemma post_body_without_text_witness :
  analyze_sentiment Fake.float_truthy Fake.py_round Fake.pipeline
    (Fake.post (Returns (PDict [(lit "txt", PStr (lit "hello"))]))) Fake.w0 =
    (Returns (error_body MSG_NO_TEXT, 400%Z), Fake.w0) /\
  analyze_sentiment Fake.float_truthy Fake.py_round Fake.pipeline
    (Fake.post (Raises (BadRequest bad_request_description))) Fake.w0 =
    (Returns
       (error_body (MSG_FAILED ++ lit "400 Bad Request: "
                      ++ bad_request_description), 500%Z),
     Fake.w0).
Proof.
  split.
  - apply (proj1 (@post_body_without_text Fake.float Fake.float_truthy
                    Fake.py_round nat Fake.pipeline
                    (Fake.post (Returns (PDict [(lit "txt", PStr (lit "hello"))])))
                    Fake.w0)
             (PDict [(lit "txt", PStr (lit "hello"))])).
    + reflexivity.
    + right. exists [(lit "txt", PStr (lit "hello"))]. split; reflexivity.
  - apply (proj2 (@post_body_without_text Fake.float Fake.float_truthy
                    Fake.py_round nat Fake.pipeline
                    (Fake.post (Raises (BadRequest bad_request_description)))
                    Fake.w0)
             (BadRequest bad_request_description)).
    reflexivity.
Defined.

(** C2 as stated fails on a body that is not valid JSON: [get_json]
    raises [BadRequest], the handler's [except] turns it into status 500,
    and the fixed 400 message is not sent. *)
Lemma post_malformed_json_counterexample :
  let req : request Fake.float :=
    Fake.post (Raises (BadRequest bad_request_description)) in
  get_json req = Raises (BadRequest bad_request_description) /\
  status (Fake.serve PostAnalyze req Fake.w0) = Some 500%Z /\
  fst (Fake.serve PostAnalyze req Fake.w0) <>
    Returns (error_body MSG_NO_TEXT, 400%Z).
Proof.
  cbv zeta. split; [reflexivity | split; [reflexivity |]].
  vm_compute. discriminate.
Qed.

Lemma classifier_exception_is_500_witness :
  Fake.serve GetAnalyze (Fake.get [(lit "text", lit "crash test")]) Fake.w0 =
    (Returns (error_body (MSG_FAILED ++ lit "out of memory"), 500%Z),
     World 1 [PStr (lit "crash test")]) /\
  Fake.serve PostAnalyze (Fake.post_text (lit "crash test")) Fake.w0 =
    (Returns (error_body (MSG_FAILED ++ lit "out of memory"), 500%Z),
     World 1 [PStr (lit "crash test")]).
Proof.
  split.
  - apply (@classifier_exception_is_500 Fake.float Fake.float_truthy
             Fake.py_round nat Fake.pipeline GetAnalyze
             (Fake.get [(lit "text", lit "crash test")]) Fake.w0
             (lit "crash test") (Exn "RuntimeError" (lit "out of memory")) 1).
    + reflexivity.
    + vm_compute. discriminate.
    + reflexivity.
  - apply (@classifier_exception_is_500 Fake.float Fake.float_truthy
             Fake.py_round nat Fake.pipeline PostAnalyze
             (Fake.post_text (lit "crash test")) Fake.w0
             (lit "crash test") (Exn "RuntimeError" (lit "out of memory")) 1).
    + reflexivity.
    + vm_compute. discriminate.
    + reflexivity.
Defined.

Lemma empty_text_rejected_witness :
  Fake.serve PostAnalyze (Fake.post_text (lit "   ")) Fake.w0 =
    (Returns (error_body MSG_EMPTY, 400%Z), Fake.w0) /\
  Fake.serve GetAnalyze (Fake.get []) Fake.w0 =
    (Returns (error_body MSG_NO_QUERY, 400%Z), Fake.w0).
Proof.
  split.
  - apply (@empty_text_rejected Fake.float Fake.float_truthy Fake.py_round
             nat Fake.pipeline PostAnalyze (Fake.post_text (lit "   "))
             Fake.w0 (lit "   ")); reflexivity.
  - apply (@empty_text_rejected Fake.float Fake.float_truthy Fake.py_round
             nat Fake.pipeline GetAnalyze (Fake.get []) Fake.w0 []);
      reflexivity.
Defined.

Lemma rejected_request_never_classifies_witness :
  snd (Fake.serve PostAnalyze (Fake.post (Returns (PDict []))) Fake.w0) =
    Fake.w0 /\
  snd (Fake.serve GetAnalyze (Fake.get [(lit "q", lit "hello")]) Fake.w0) =
    Fake.w0.
Proof.
  split.
  - apply (@rejected_request_never_classifies Fake.float Fake.float_truthy
             Fake.py_round nat Fake.pipeline PostAnalyze
             (Fake.post (Returns (PDict []))) Fake.w0).
    reflexivity.
  - apply (@rejected_request_never_classifies Fake.float Fake.float_truthy
             Fake.py_round nat Fake.pipeline GetAnalyze
             (Fake.get [(lit "q", lit "hello")]) Fake.w0).
    reflexivity.
Defined.

Lemma get_post_agree_witness :
  analyze_sentiment_get Fake.float_truthy Fake.py_round Fake.pipeline
    (Fake.get [(lit "text", lit "I love this!")]) Fake.w0 =
  analyze_sentiment Fake.float_truthy Fake.py_round Fake.pipeline
    (Fake.post_text (lit "I love this!")) Fake.w0.
Proof.
  apply (@get_post_agree Fake.float Fake.float_truthy Fake.py_round nat
           Fake.pipeline (Fake.post_text (lit "I love this!"))
           (Fake.get [(lit "text", lit "I love this!")]) Fake.w0
           (lit "I love this!")).
  - reflexivity.
  - reflexivity.
  - vm_compute. discriminate.
Defined.

(** C9 as stated fails on a text of one space: it is a non-empty string,
    the classifier would succeed on it, and the request is rejected with
    status 400. *)
Lemma post_blank_text_counterexample :
  let t := lit " " in
  t <> [] /\
  Fake.pipeline (PStr t) 0 = (Returns (PList [Fake.positive]), 1) /\
  Fake.serve PostAnalyze (Fake.post_text t) Fake.w0 =
    (Returns (error_body MSG_EMPTY, 400%Z), Fake.w0).
Proof.
  cbv zeta. split; [vm_compute; discriminate | split; reflexivity].
Qed.

Lemma post_nonblank_text_results_witness :
  exists out,
    fst (analyze_sentiment Fake.float_truthy Fake.py_round Fake.pipeline
           (Request (Returns (PDict [(lit "text", PStr (lit "ok"))])) [])
           Fake.w0) =
      Returns (PDict [(lit "input_text", PStr (lit "ok"));
                      (lit "sentiment_results", PList out)], 200%Z) /\
    List.length out = 1 /\
    out <> [].
Proof.
  destruct (@post_nonblank_text_results Fake.float Fake.float_truthy
              Fake.py_round nat Fake.pipeline Fake.w0 (lit "ok")
              [Fake.positive]
              [Prediction (PStr (lit "positive")) 987654%Z] 1)
    as [out [Hr [Hlen [Hne _]]]].
  - vm_compute. discriminate.
  - reflexivity.
  - reflexivity.
  - exists out. split; [exact Hr | split; [exact Hlen |]].
    apply Hne. discriminate.
Defined.

Lemma post_non_string_text_is_500_witness :
  analyze_sentiment Fake.float_truthy Fake.py_round Fake.pipeline
    (Fake.post (Returns (PDict [(lit "text", PInt 5)]))) Fake.w0 =
    (Returns
       (error_body (MSG_FAILED
                      ++ lit "'int' object has no attribute 'strip'"),
        500%Z),
     Fake.w0).
Proof.
  apply (@post_non_string_text_is_500 Fake.float Fake.float_truthy
           Fake.py_round nat Fake.pipeline
           (Fake.post (Returns (PDict [(lit "text", PInt 5)]))) Fake.w0
           [(lit "text", PInt 5)] (PInt 5)); reflexivity.
Defined.

(* ================================================================== *)
(** * Further properties of the handlers *)
(* ================================================================== *)

Section Handlers.

Variable float : Type.
Variable float_truthy : float -> bool.
Variable py_round : float -> Z -> float.
Variable model : Type.

Abbreviation value := (pyval float).

Variable pipeline : value -> model -> outcome value * model.

Abbreviation serve := (serve float_truthy py_round pipeline).
Abbreviation POST := (analyze_sentiment float_truthy py_round pipeline).
Abbreviation GET := (analyze_sentiment_get float_truthy py_round pipeline).
Abbreviation classified := (classified py_round pipeline).
Abbreviation loop := (@for_result_in float py_round model).
Abbreviation state := (world model value).

Local Open Scope Z_scope.

(** ** Blank texts *)

Lemma lstrip_nil (s : pystr) : lstrip s = [] <-> forallb is_space s = true.
Proof.
  induction s as [|c s IH]; simpl; [tauto|].
  destruct (is_space c); simpl; [exact IH | split; discriminate].
Qed.

Lemma lstrip_spaces (s : pystr) :
  forallb is_space (lstrip s) = true -> lstrip s = [].
Proof.
  induction s as [|c s IH]; simpl; [reflexivity|].
  destruct (is_space c) eqn:Hc; [exact IH|].
  simpl. rewrite Hc. discriminate.
Qed.

Lemma forallb_rev (A : Type) (f : A -> bool) (l : list A) :
  forallb f (rev l) = forallb f l.
Proof.
  induction l as [|x l IH]; simpl; [reflexivity|].
  rewrite forallb_app, IH. simpl. rewrite andb_true_r. apply andb_comm.
Qed.

(** [strip] leaves nothing exactly when every character is whitespace. *)
Lemma strip_nil (s : pystr) : strip s = [] <-> forallb is_space s = true.
Proof.
  unfold strip, rstrip. split.
  - intros H.
    assert (H1 : lstrip (rev (lstrip s)) = []).
    { destruct (lstrip (rev (lstrip s))); [reflexivity|].
      apply (f_equal (@List.length N)) in H.
      rewrite length_rev in H. discriminate H. }
    apply lstrip_nil in H1. rewrite forallb_rev in H1.
    apply lstrip_nil. now apply lstrip_spaces.
  - intros H. apply lstrip_nil in H. rewrite H. reflexivity.
Qed.

(** ** One pass of the loop *)

Lemma step_ok (e : value) :
  entry_ok e = true ->
  exists l r,
    is_number r = true /\
    forall rest acc (w : state),
      loop (e :: rest) acc w =
      loop rest (acc ++ [PDict [(lit "label", l); (lit "score", r)]]) w.
Proof.
  destruct e as [| | | | | |d]; try discriminate.
  unfold entry_ok, dict_has.
  destruct (dict_get d (lit "label")) as [l|] eqn:Hl; [|discriminate].
  destruct (dict_get d (lit "score")) as [s|] eqn:Hs; [|discriminate].
  cbn [andb]. intros Hr.
  destruct s as [|b|n|f| | |]; try discriminate.
  - exists l, (PInt (if b then 1 else 0)). split; [reflexivity|].
    intros rest acc w. cbn [for_result_in getitem]. unfold bind.
    rewrite Hl, Hs. reflexivity.
  - exists l, (PInt n). split; [reflexivity|].
    intros rest acc w. cbn [for_result_in getitem]. unfold bind.
    rewrite Hl, Hs. reflexivity.
  - exists l, (PFloat (py_round f 4)). split; [reflexivity|].
    intros rest acc w. cbn [for_result_in getitem]. unfold bind.
    rewrite Hl, Hs. reflexivity.
Qed.

Lemma step_bad (e : value) :
  entry_ok e = false ->
  exists x, forall rest acc (w : state), loop (e :: rest) acc w = (Raises x, w).
Proof.
  destruct e as [| | | | | |d];
    try (intros _; eexists; intros rest acc w; reflexivity).
  unfold entry_ok, dict_has.
  destruct (dict_get d (lit "label")) as [l|] eqn:Hl.
  2:{ intros _. eexists. intros rest acc w.
      cbn [for_result_in getitem]. unfold bind. rewrite Hl. reflexivity. }
  destruct (dict_get d (lit "score")) as [s|] eqn:Hs.
  2:{ intros _. eexists. intros rest acc w.
      cbn [for_result_in getitem]. unfold bind. rewrite Hl, Hs. reflexivity. }
  cbn [andb]. intros Hr.
  destruct s; try discriminate;
    eexists; intros rest acc w; cbn [for_result_in getitem]; unfold bind;
    rewrite Hl, Hs; reflexivity.
Qed.

(** The loop gets through exactly the lists whose items are all well
    formed, and then adds one entry per item to what it was given. *)
Lemma loop_run (es acc : list value) (w : state) :
  if forallb entry_ok es
  then exists new,
         loop es acc w = (Returns (acc ++ new), w) /\
         List.length new = List.length es /\
         forallb is_result_entry new = true
  else exists x, loop es acc w = (Raises x, w).
Proof.
  revert acc. induction es as [|e es IH]; intros acc.
  - exists []. cbn. now rewrite app_nil_r.
  - cbn [forallb]. destruct (entry_ok e) eqn:He.
    + destruct (step_ok e He) as [l [r [Hr Hstep]]].
      cbn [andb]. rewrite Hstep.
      specialize (IH (acc ++ [PDict [(lit "label", l); (lit "score", r)]])).
      destruct (forallb entry_ok es).
      * destruct IH as [new [Hrun [Hlen Hall]]].
        exists (PDict [(lit "label", l); (lit "score", r)] :: new).
        rewrite Hrun, <- app_assoc. split; [reflexivity|].
        split; [simpl; now rewrite Hlen|].
        cbn [forallb]. rewrite Hall.
        cbn. now rewrite Hr.
      * exact IH.
    + destruct (step_bad e He) as [x Hstep].
      cbn [andb]. exists x. apply Hstep.
Qed.

(** ** Validation *)

Lemma empty_text_rejected_aux
    (r : route) (req : request float) (w : state) (t : pystr) :
  submitted r req = Some (PStr t) ->
  strip t = [] ->
  serve r req w = (Returns (error_body (empty_text_message r), 400), w).
Proof.
  intros Hsub Hs.
  destruct r; simpl in Hsub.
  - destruct (get_json req) as [[| | | | | |d]|e] eqn:Hj; try discriminate.
    destruct (dict_get_truthy float_truthy _ _ Hsub) as [Hd Hk].
    unfold serve, analyze_sentiment, try_except, bind, request_get_json.
    rewrite Hj. cbn [ret]. rewrite Hd. cbn [negb contains ret].
    rewrite Hk. cbn [negb getitem]. rewrite Hsub.
    cbn [ret call_strip]. now rewrite Hs.
  - injection Hsub as Hsub.
    unfold serve, analyze_sentiment_get, try_except, bind.
    rewrite Hsub. cbn [call_strip ret]. now rewrite Hs.
Qed.

(** ** The two halves of a request *)

(** What a classification makes of the classifier's answer. *)
Lemma classified_answer (t : pystr) (w : state) v m' :
  pipeline (PStr t) (model_state w) = (Returns v, m') ->
  let w' := World m' (calls w ++ [PStr t]) in
  if answer_ok v
  then exists es out,
         iterate v w' = (Returns es, w') /\
         classified t w =
           (Returns (PDict [(lit "input_text", PStr t);
                            (lit "sentiment_results", PList out)], 200),
            w') /\
         List.length out = List.length es /\
         forallb is_result_entry out = true
  else exists x,
         classified t w =
           (Returns (error_body (MSG_FAILED ++ exn_str x), 500), w').
Proof.
  intros Hp w'.
  assert (Hc : forall es,
             iterate v w' = (Returns es, w') ->
             if forallb entry_ok es
             then exists out,
                 classified t w =
                   (Returns (PDict [(lit "input_text", PStr t);
                                    (lit "sentiment_results", PList out)],
                             200), w') /\
                 List.length out = List.length es /\
                 forallb is_result_entry out = true
             else exists x,
                 classified t w =
                   (Returns (error_body (MSG_FAILED ++ exn_str x), 500), w')).
  { intros es Hi. pose proof (loop_run es [] w') as Hl.
    destruct (forallb entry_ok es).
    - destruct Hl as [out [Hrun [Hlen Hall]]]. exists out.
      unfold classified, try_except, bind, sentiment_analyzer.
      rewrite Hp. fold w'. rewrite Hi, Hrun. now split.
    - destruct Hl as [x Hrun]. exists x.
      unfold classified, try_except, bind, sentiment_analyzer.
      rewrite Hp. fold w'. rewrite Hi, Hrun. reflexivity. }
  destruct v as [| | | |s|l|d]; cbn [answer_ok];
    try (eexists; unfold classified, try_except, bind, sentiment_analyzer;
         rewrite Hp; reflexivity).
  - destruct s as [|c s].
    + destruct (Hc [] eq_refl) as [out H]. exists [], out. now split.
    + exact (Hc (map (fun c => PStr [c]) (c :: s)) eq_refl).
  - specialize (Hc l eq_refl). destruct (forallb entry_ok l); [|exact Hc].
    destruct Hc as [out H]. exists l, out. now split.
  - destruct d as [|kv d].
    + destruct (Hc [] eq_refl) as [out H]. exists [], out. now split.
    + exact (Hc (map (fun kv => PStr (fst kv)) (kv :: d)) eq_refl).
Qed.

Lemma classified_failure (t : pystr) (w : state) e m' :
  pipeline (PStr t) (model_state w) = (Raises e, m') ->
  classified t w =
    (Returns (error_body (MSG_FAILED ++ exn_str e), 500),
     World m' (calls w ++ [PStr t])).
Proof.
  intros Hp. unfold classified, try_except, bind, sentiment_analyzer.
  now rewrite Hp.
Qed.

(** What validation makes of a request, whatever the world: the
    missing-text rejection, the empty-text rejection, an exception of the
    POST handler's own, or the hand-over to classification. *)
Lemma serve_detail (r : route) (req : request float) :
  (r = PostAnalyze /\ submitted r req = None /\
   forall w : state,
     serve r req w = (Returns (error_body MSG_NO_TEXT, 400), w)) \/
  (exists t, submitted r req = Some (PStr t) /\ strip t = [] /\
             forall w : state,
               serve r req w =
                 (Returns (error_body (empty_text_message r), 400), w)) \/
  (exists x, r = PostAnalyze /\
             (forall t, submitted r req <> Some (PStr t)) /\
             forall w : state,
               serve r req w =
                 (Returns (error_body (MSG_FAILED ++ exn_str x), 500), w)) \/
  (exists t, submitted r req = Some (PStr t) /\ strip t <> [] /\
             forall w : state, serve r req w = classified t w).
Proof.
  destruct (submitted r req) as [v|] eqn:Hsub.
  - destruct (is_str v) eqn:Hv.
    + destruct v as [| | | |t| |]; try discriminate.
      destruct (strip t) as [|c u] eqn:Hs.
      * right; left. exists t. split; [reflexivity | split; [exact Hs|]].
        intros w. now apply (@empty_text_rejected_aux r req w t).
      * right; right; right. exists t.
        split; [reflexivity | split; [congruence|]].
        intros w. apply serve_valid; [exact Hsub | congruence].
    + right; right; left.
      destruct r.
      * simpl in Hsub.
        destruct (get_json req) as [[| | | | | |d]|e] eqn:Hj;
          try discriminate.
        destruct (dict_get_truthy float_truthy _ _ Hsub) as [Hd Hk].
        exists (AttributeError
                  (lit "'" ++ type_name v
                     ++ lit "' object has no attribute 'strip'")).
        split; [reflexivity|]. split.
        { intros t Ht. injection Ht as ->. discriminate Hv. }
        intros w.
        unfold serve, analyze_sentiment, try_except, bind, request_get_json.
        rewrite Hj. cbn [ret]. rewrite Hd. cbn [negb contains ret].
        rewrite Hk. cbn [negb getitem]. rewrite Hsub.
        destruct v; try discriminate; reflexivity.
      * simpl in Hsub. injection Hsub as <-. discriminate Hv.
  - destruct r; [|discriminate].
    simpl in Hsub.
    unfold serve, analyze_sentiment, try_except, bind, request_get_json.
    destruct (get_json req) as [data|e] eqn:Hj.
    2:{ right; right; left. exists e.
        split; [reflexivity | split; [discriminate | reflexivity]]. }
    cbn [ret].
    destruct data as [|[|]|n|f|[|c s]|[|x l]|[|kv d]];
      cbn [truthy negb contains ret raise];
      try (left; repeat split; reflexivity);
      try (right; right; left; eexists;
           split; [reflexivity | split; [discriminate | reflexivity]]).
    + destruct (Z.eqb n 0); cbn [negb];
        [left; repeat split; reflexivity
        | right; right; left; eexists;
          split; [reflexivity | split; [discriminate | reflexivity]]].
    + destruct (float_truthy f); cbn [negb];
        [right; right; left; eexists;
         split; [reflexivity | split; [discriminate | reflexivity]]
        | left; repeat split; reflexivity].
    + destruct (str_contains (c :: s) (lit "text")); cbn [negb getitem raise];
        [right; right; left; eexists;
         split; [reflexivity | split; [discriminate | reflexivity]]
        | left; repeat split; reflexivity].
    + destruct (existsb (eq_str (lit "text")) (x :: l));
        cbn [negb getitem raise];
        [right; right; left; eexists;
         split; [reflexivity | split; [discriminate | reflexivity]]
        | left; repeat split; reflexivity].
    + unfold dict_has. rewrite Hsub. left; repeat split; reflexivity.
Qed.

(** The status and body of a classification, read off the classifier's
    outcome. *)
Lemma classified_status (t : pystr) (w : state) :
  status (classified t w) =
    Some (match fst (pipeline (PStr t) (model_state w)) with
          | Returns v => if answer_ok v then 200 else 500
          | Raises _ => 500
          end).
Proof.
  destruct (pipeline (PStr t) (model_state w)) as [[v|e] m'] eqn:Hp.
  - pose proof (@classified_answer t w _ _ Hp) as H. cbv zeta in H. cbn [fst].
    revert H. destruct (answer_ok v); intros H.
    + destruct H as [es [out [_ [-> _]]]]. reflexivity.
    + destruct H as [x ->]. reflexivity.
  - now rewrite (@classified_failure t w _ _ Hp).
Qed.

Lemma classified_world (t : pystr) (w : state) :
  snd (classified t w) =
    World (snd (pipeline (PStr t) (model_state w))) (calls w ++ [PStr t]).
Proof.
  destruct (pipeline (PStr t) (model_state w)) as [[v|e] m'] eqn:Hp.
  - pose proof (@classified_answer t w _ _ Hp) as H. cbv zeta in H.
    revert H. destruct (answer_ok v); intros H.
    + destruct H as [es [out [_ [-> _]]]]. reflexivity.
    + destruct H as [x ->]. reflexivity.
  - now rewrite (@classified_failure t w _ _ Hp).
Qed.

(** The loop's result does not depend on the world it runs in. *)
Lemma loop_fst (es acc : list value) (w1 w2 : state) :
  fst (loop es acc w1) = fst (loop es acc w2).
Proof.
  revert acc. induction es as [|e es IH]; intros acc; [reflexivity|].
  destruct (entry_ok e) eqn:He.
  - destruct (step_ok e He) as [l [r [_ Hstep]]]. rewrite !Hstep. apply IH.
  - destruct (step_bad e He) as [x Hstep]. now rewrite !Hstep.
Qed.

Lemma classified_fst (t : pystr) (w1 w2 : state) :
  fst (pipeline (PStr t) (model_state w1)) =
  fst (pipeline (PStr t) (model_state w2)) ->
  fst (classified t w1) = fst (classified t w2).
Proof.
  unfold classified, try_except, bind, sentiment_analyzer.
  destruct (pipeline (PStr t) (model_state w1)) as [[v1|e1] m1];
    destruct (pipeline (PStr t) (model_state w2)) as [[v2|e2] m2];
    simpl; intros H; try discriminate; injection H as <-; [|reflexivity].
  set (u1 := World m1 (calls w1 ++ [PStr t])).
  set (u2 := World m2 (calls w2 ++ [PStr t])).
  assert (Hi : forall es, iterate v1 u1 = (Returns es, u1) ->
                          iterate v1 u2 = (Returns es, u2)).
  { intros es. destruct v1; cbn; intros H; try discriminate;
      now injection H as <-. }
  destruct (iterate v1 u1) as [[es|x] u1'] eqn:H1.
  - assert (u1' = u1) as ->.
    { destruct v1; cbn in H1; try discriminate; now injection H1 as _ <-. }
    rewrite (Hi es eq_refl).
    pose proof (loop_fst es [] u1 u2) as Hl.
    pose proof (for_result_in_frame py_round es [] u1) as F1.
    pose proof (for_result_in_frame py_round es [] u2) as F2.
    destruct (loop es [] u1) as [[o1|x1] u1'];
      destruct (loop es [] u2) as [[o2|x2] u2'];
      simpl in *; try discriminate; now injection Hl as <-.
  - destruct v1; cbn in H1; try discriminate;
      injection H1 as <- <-; reflexivity.
Qed.

(** ** Properties *)

(** X1.  The world after a request to an analyse route: when the request
    submits a string that is not blank, the classifier has been called
    once, with that string as it came; in every other case the world is
    the one before, so the classifier is never called twice, nor with a
    blank text or with anything but the submitted string. *)
Theorem world_after_request (r : route) (req : request float) (w : state) :
  snd (serve r req w) =
    match submitted r req with
    | Some (PStr t) =>
        match strip t with
        | [] => w
        | _ :: _ =>
            World (snd (pipeline (PStr t) (model_state w)))
                  (calls w ++ [PStr t])
        end
    | _ => w
    end.
Proof.
  destruct (serve_detail r req)
    as [[_ [Hs H]] | [[t [Hs [Hb H]]] | [[x [_ [Hs H]]] | [t [Hs [Hb H]]]]]];
    rewrite H.
  - now rewrite Hs.
  - now rewrite Hs, Hb.
  - destruct (submitted r req) as [[| | | |t| |]|]; try reflexivity.
    now destruct (Hs t).
  - rewrite Hs, classified_world.
    destruct (strip t); [congruence | reflexivity].
Qed.

(** X2.  A response with status 200 echoes the submitted string under
    [input_text] and carries under [sentiment_results] one entry per item
    of the classifier's answer, each entry having exactly a [label] and
    a numeric [score]. *)
Theorem success_shape (r : route) (req : request float) (w : state) :
  status (serve r req w) = Some 200 ->
  exists t out v es,
    submitted r req = Some (PStr t) /\
    response_body (serve r req w) =
      Some (PDict [(lit "input_text", PStr t);
                   (lit "sentiment_results", PList out)]) /\
    forallb is_result_entry out = true /\
    fst (pipeline (PStr t) (model_state w)) = Returns v /\
    fst (iterate v w) = Returns es /\
    List.length out = List.length es.
Proof.
  intros Hst.
  destruct (serve_detail r req)
    as [[_ [_ H]] | [[t [_ [_ H]]] | [[x [_ [_ H]]] | [t [Hs [_ H]]]]]];
    rewrite H in *; try discriminate.
  destruct (pipeline (PStr t) (model_state w)) as [[v|e] m'] eqn:Hp.
  2:{ rewrite (@classified_failure t w _ _ Hp) in Hst. discriminate. }
  pose proof (@classified_answer t w _ _ Hp) as Hc. cbv zeta in Hc.
  revert Hc. destruct (answer_ok v); intros Hc.
  - destruct Hc as [es [out [Hi [Hc [Hlen Hall]]]]].
    exists t, out, v, es. rewrite Hc.
    split; [exact Hs|]. split; [reflexivity|]. split; [exact Hall|].
    split; [now rewrite Hp|]. split; [|exact Hlen].
    destruct v; cbn in Hi |- *; try discriminate; now injection Hi as <-.
  - destruct Hc as [x Hc]. rewrite Hc in Hst. discriminate.
Qed.

(** X3.  GET /analyze answers 400 exactly when every character of the
    [text] parameter (the empty string when there is none) is
    whitespace. *)
Theorem get_rejects_exactly_blank (req : request float) (w : state) :
  status (GET req w) = Some 400 <->
  forallb is_space (args_get (args req) (lit "text") []) = true.
Proof.
  change (GET req w) with (serve GetAnalyze req w).
  destruct (serve_detail GetAnalyze req)
    as [[Hr _] | [[t [Hs [Hb H]]] | [[x [Hr _]] | [t [Hs [Hb H]]]]]];
    try discriminate; rewrite H; simpl in Hs; injection Hs as Hs;
    rewrite Hs, <- strip_nil.
  - split; [intros _; exact Hb | reflexivity].
  - rewrite classified_status. split; [|contradiction].
    destruct (fst (pipeline (PStr t) (model_state w))) as [v|e];
      [destruct (answer_ok v)|]; discriminate.
Qed.

(** X4.  The body of a 400 names its cause: the missing-text message is
    sent only by POST and only when the body yields no [text] value; the
    route's empty-text message only for a submitted string made of
    whitespace alone. *)
Theorem rejection_names_cause (r : route) (req : request float) (w : state) :
  status (serve r req w) = Some 400 ->
  (r = PostAnalyze /\ submitted r req = None /\
   response_body (serve r req w) = Some (error_body MSG_NO_TEXT)) \/
  (exists t, submitted r req = Some (PStr t) /\
             forallb is_space t = true /\
             response_body (serve r req w) =
               Some (error_body (empty_text_message r))).
Proof.
  intros Hst.
  destruct (serve_detail r req)
    as [[Hr [Hs H]] | [[t [Hs [Hb H]]] | [[x [_ [_ H]]] | [t [_ [_ H]]]]]];
    rewrite H in *; try discriminate.
  - left. now repeat split.
  - right. exists t. apply strip_nil in Hb. now repeat split.
  - rewrite classified_status in Hst.
    destruct (fst (pipeline (PStr t) (model_state w))) as [v|e];
      [destruct (answer_ok v)|]; discriminate.
Qed.

(** X5.  The error string of every 500 response, whatever failed (the
    request parsing, the text value, the classifier or its answer),
    begins with the fixed wrapper text. *)
Theorem failure_message_prefix (r : route) (req : request float) (w : state) :
  status (serve r req w) = Some 500 ->
  exists rest : pystr,
    response_body (serve r req w) = Some (error_body (MSG_FAILED ++ rest)).
Proof.
  intros Hst.
  destruct (serve_detail r req)
    as [[_ [_ H]] | [[t [_ [_ H]]] | [[x [_ [_ H]]] | [t [_ [_ H]]]]]];
    rewrite H in *; try discriminate.
  - now exists (exn_str x).
  - destruct (pipeline (PStr t) (model_state w)) as [[v|e] m'] eqn:Hp.
    + pose proof (@classified_answer t w _ _ Hp) as Hc. cbv zeta in Hc.
      revert Hc. destruct (answer_ok v); intros Hc.
      * destruct Hc as [es [out [_ [Hc _]]]]. rewrite Hc in Hst. discriminate.
      * destruct Hc as [x Hc]. rewrite Hc. now exists (exn_str x).
    + rewrite (@classified_failure t w _ _ Hp). now exists (exn_str e).
Qed.

(** X6.  POST /analyze takes every falsy body for a missing one: [null],
    [false], [0], [0.0], the empty string, list and object all get the
    400 missing-text response. *)
Theorem falsy_body_is_missing (req : request float) (w : state) data :
  get_json req = Returns data ->
  truthy float_truthy data = false ->
  POST req w = (Returns (error_body MSG_NO_TEXT, 400), w).
Proof.
  intros Hj Ht.
  unfold analyze_sentiment, try_except, bind, request_get_json.
  rewrite Hj. cbn [ret]. now rewrite Ht.
Qed.

(** X7.  Only a JSON object can lead to a classification: a POST whose
    body decodes to anything else is answered with 400 or 500 and leaves
    the world as it was. *)
Theorem non_object_body_never_classified
    (req : request float) (w : state) data :
  get_json req = Returns data ->
  is_dict data = false ->
  snd (POST req w) = w /\
  (status (POST req w) = Some 400 \/ status (POST req w) = Some 500).
Proof.
  intros Hj Hd.
  assert (Hs : submitted PostAnalyze req = None).
  { simpl. rewrite Hj. now destruct data. }
  change (POST req w) with (serve PostAnalyze req w).
  destruct (serve_detail PostAnalyze req)
    as [[_ [_ H]] | [[t [Hs' _]] | [[x [_ [_ H]]] | [t [Hs' _]]]]];
    try congruence; rewrite H; split;
    first [reflexivity | left; reflexivity | right; reflexivity].
Qed.

(** X8.  No partial results: once a text has passed validation, the
    status is 200 when the loop gets through the whole of the
    classifier's answer, and 500 as soon as one item of it is not a dict
    with a [label] and a roundable [score] (or the answer cannot be
    iterated). *)
Theorem answer_all_or_nothing
    (r : route) (req : request float) (w : state) (t : pystr) v m' :
  submitted r req = Some (PStr t) ->
  strip t <> [] ->
  pipeline (PStr t) (model_state w) = (Returns v, m') ->
  status (serve r req w) = Some (if answer_ok v then 200 else 500).
Proof.
  intros Hs Hb Hp.
  rewrite (serve_valid float_truthy py_round pipeline _ _ w Hs Hb).
  now rewrite classified_status, Hp.
Qed.

(** X9.  The handlers keep no state of their own: in two worlds where
    the classifier gives the same outcome on the submitted text, a
    request gets the same response. *)
Theorem response_depends_on_classifier_only
    (r : route) (req : request float) (w1 w2 : state) :
  (forall t, submitted r req = Some (PStr t) ->
             fst (pipeline (PStr t) (model_state w1)) =
             fst (pipeline (PStr t) (model_state w2))) ->
  fst (serve r req w1) = fst (serve r req w2).
Proof.
  intros Hsame.
  destruct (serve_detail r req)
    as [[_ [_ H]] | [[t [_ [_ H]]] | [[x [_ [_ H]]] | [t [Hs [_ H]]]]]];
    rewrite !H; try reflexivity.
  apply classified_fst. now apply Hsame.
Qed.

(** X10.  GET /analyze has no failure of its own: a 500 on this route
    always comes after the call of the classifier, made with the raw
    [text] parameter. *)
Theorem get_failure_follows_call (req : request float) (w : state) :
  status (GET req w) = Some 500 ->
  calls (snd (GET req w)) =
    calls w ++ [PStr (args_get (args req) (lit "text") [])].
Proof.
  intros Hst.
  change (GET req w) with (serve GetAnalyze req w) in *.
  destruct (serve_detail GetAnalyze req)
    as [[Hr _] | [[t [_ [_ H]]] | [[x [Hr _]] | [t [Hs [_ H]]]]]];
    try discriminate; rewrite H in *; try discriminate.
  simpl in Hs. injection Hs as ->.
  now rewrite classified_world.
Qed.

(** X14.  For one and the same text, blank or not, the two routes answer
    with the same status and leave the same world; only the wording of
    the empty-text rejection differs. *)
Theorem routes_agree_on_status
    (post get : request float) (w : state) (t : pystr) :
  submitted PostAnalyze post = Some (PStr t) ->
  submitted GetAnalyze get = Some (PStr t) ->
  status (POST post w) = status (GET get w) /\
  snd (POST post w) = snd (GET get w) /\
  (strip t <> [] -> POST post w = GET get w).
Proof.
  intros Hp Hg.
  change (POST post w) with (serve PostAnalyze post w).
  change (GET get w) with (serve GetAnalyze get w).
  destruct (strip t) as [|c u] eqn:Hs.
  - rewrite (empty_text_rejected_aux _ _ w Hp Hs),
      (empty_text_rejected_aux _ _ w Hg Hs).
    split; [reflexivity | split; [reflexivity | congruence]].
  - assert (Hne : strip t <> []) by congruence.
    rewrite (serve_valid float_truthy py_round pipeline _ _ w Hp Hne),
      (serve_valid float_truthy py_round pipeline _ _ w Hg Hne).
    now repeat split.
Qed.

End Handlers.

(* ================================================================== *)
(** * The information document and start-up *)
(* ================================================================== *)

Section Document.

Variable float : Type.
Variable model : Type.

Abbreviation value := (pyval float).
Abbreviation state := (world model value).


End Document.

Section StartupProperties.

Variable py_int : pystr -> outcome Z.
Variable unicode_lower : pystr -> pystr.

Abbreviation lower := (lower unicode_lower).
Abbreviation app_main := (app_main py_int).
Abbreviation main_main := (main_main py_int unicode_lower).

Lemma ascii_lower_letter (c x : N) :
  (97 <= x <= 122)%N ->
  N.eqb (ascii_lower c) x =
    (N.eqb c x || N.eqb (c + 32) x && N.leb 65 c && N.leb c 90).
Proof.
  intros Hx. unfold ascii_lower.
  destruct (N.leb_spec 65 c), (N.leb_spec c 90); cbn [andb];
    rewrite ?andb_false_r, ?andb_true_r, ?orb_false_r; try reflexivity.
  destruct (N.eqb_spec c x); [lia | reflexivity].
Qed.

(** On an ASCII string, lowering and comparing with a lower-case word is
    comparing up to the case of the letters. *)
Lemma lower_case_variant (v word : pystr) :
  Forall (fun x => (97 <= x <= 122)%N) word ->
  is_ascii v = true ->
  str_eqb (lower v) word = case_variant v word.
Proof.
  intros Hw Hv. unfold lower. rewrite Hv. clear Hv.
  revert v. induction Hw as [|x word Hx Hw IH]; intros [|c v];
    simpl; try reflexivity.
  now rewrite (ascii_lower_letter c Hx), IH.
Qed.

(** X12.  [main.py] turns debug mode on only for [DEBUG] set to [true] in
    some mix of upper and lower case; with [DEBUG] unset, or set to any
    other ASCII text ([1], [yes], [on], a padded ["true "]), it is off. *)
Theorem debug_only_for_true (env : environ) (st : started) :
  main_main env = Returns st ->
  match environ_get env (lit "DEBUG") with
  | None => run_debug st = Some false
  | Some v => is_ascii v = true ->
              run_debug st = Some (case_variant v (lit "true"))
  end.
Proof.
  unfold main_main. destruct (port_from py_int env) as [port|e];
    [|discriminate].
  intros H. injection H as <-. cbn [run_debug].
  destruct (environ_get env (lit "DEBUG")) as [v|].
  - intros Hv. f_equal. apply lower_case_variant; [|exact Hv].
    change (lit "true") with [116; 114; 117; 101]%N.
    repeat (apply Forall_cons; [lia|]). apply Forall_nil.
  - reflexivity.
Qed.


End StartupProperties.

(* ================================================================== *)
(** * Further runs on the stand-ins *)
(* ================================================================== *)

Lemma success_shape_witness :
  exists t out v es,
    submitted GetAnalyze (Fake.get [(lit "text", lit " ok ")]) =
      Some (PStr t) /\
    response_body (Fake.serve GetAnalyze (Fake.get [(lit "text", lit " ok ")]) Fake.w0) =
      Some (PDict [(lit "input_text", PStr t);
                   (lit "sentiment_results", PList out)]) /\
    forallb is_result_entry out = true /\
    fst (Fake.pipeline (PStr t) (model_state Fake.w0)) = Returns v /\
    fst (iterate v Fake.w0) = Returns es /\
    List.length out = List.length es.
Proof.
  apply (@success_shape Fake.float Fake.float_truthy Fake.py_round nat
           Fake.pipeline GetAnalyze (Fake.get [(lit "text", lit " ok ")])
           Fake.w0).
  reflexivity.
Defined.

Lemma rejection_names_cause_witness :
  (PostAnalyze = PostAnalyze /\
   submitted PostAnalyze (Fake.post (Returns (PList []))) = None /\
   response_body (Fake.serve PostAnalyze (Fake.post (Returns (PList []))) Fake.w0) =
     Some (error_body MSG_NO_TEXT)) \/
  (exists t,
      submitted PostAnalyze (Fake.post (Returns (PList []))) = Some (PStr t) /\
      forallb is_space t = true /\
      response_body (Fake.serve PostAnalyze (Fake.post (Returns (PList []))) Fake.w0) =
        Some (error_body (empty_text_message PostAnalyze))).
Proof.
  apply (@rejection_names_cause Fake.float Fake.float_truthy Fake.py_round
           nat Fake.pipeline PostAnalyze (Fake.post (Returns (PList [])))
           Fake.w0).
  reflexivity.
Defined.

Lemma failure_message_prefix_witness :
  exists rest : pystr,
    response_body (Fake.serve PostAnalyze
            (Fake.post (Returns (PStr (lit "some text")))) Fake.w0) =
      Some (error_body (MSG_FAILED ++ rest)).
Proof.
  apply (@failure_message_prefix Fake.float Fake.float_truthy Fake.py_round
           nat Fake.pipeline PostAnalyze
           (Fake.post (Returns (PStr (lit "some text")))) Fake.w0).
  reflexivity.
Defined.

Lemma falsy_body_is_missing_witness :
  analyze_sentiment Fake.float_truthy Fake.py_round Fake.pipeline
    (Fake.post (Returns (PInt 0))) Fake.w0 =
    (Returns (error_body MSG_NO_TEXT, 400%Z), Fake.w0).
Proof.
  apply (@falsy_body_is_missing Fake.float Fake.float_truthy Fake.py_round
           nat Fake.pipeline (Fake.post (Returns (PInt 0))) Fake.w0 (PInt 0));
    reflexivity.
Defined.

Lemma non_object_body_never_classified_witness :
  snd (analyze_sentiment Fake.float_truthy Fake.py_round Fake.pipeline
         (Fake.post (Returns (PList [PStr (lit "text")]))) Fake.w0) = Fake.w0.
Proof.
  apply (@non_object_body_never_classified Fake.float Fake.float_truthy
           Fake.py_round nat Fake.pipeline
           (Fake.post (Returns (PList [PStr (lit "text")]))) Fake.w0
           (PList [PStr (lit "text")])); reflexivity.
Defined.

Lemma answer_all_or_nothing_witness :
  status (serve Fake.float_truthy Fake.py_round Stub.mixed PostAnalyze
            (Fake.post_text (lit "ok")) Fake.w0) = Some 500%Z /\
  status (Fake.serve PostAnalyze (Fake.post_text (lit "ok")) Fake.w0) =
    Some 200%Z.
Proof.
  split.
  - apply (@answer_all_or_nothing Fake.float Fake.float_truthy Fake.py_round
             nat Stub.mixed PostAnalyze (Fake.post_text (lit "ok")) Fake.w0
             (lit "ok") (PList [Fake.positive; PStr (lit "negative")]) 1).
    + reflexivity.
    + vm_compute. discriminate.
    + reflexivity.
  - apply (@answer_all_or_nothing Fake.float Fake.float_truthy Fake.py_round
             nat Fake.pipeline PostAnalyze (Fake.post_text (lit "ok")) Fake.w0
             (lit "ok") (PList [Fake.positive]) 1).
    + reflexivity.
    + vm_compute. discriminate.
    + reflexivity.
Defined.

Lemma response_depends_on_classifier_only_witness :
  fst (Fake.serve GetAnalyze (Fake.get [(lit "text", lit "ok")]) Fake.w0) =
  fst (Fake.serve GetAnalyze (Fake.get [(lit "text", lit "ok")])
         (World 7 [PStr (lit "before")])).
Proof.
  apply (@response_depends_on_classifier_only Fake.float Fake.float_truthy
           Fake.py_round nat Fake.pipeline GetAnalyze
           (Fake.get [(lit "text", lit "ok")]) Fake.w0
           (World 7 [PStr (lit "before")])).
  intros t H. injection H as <-. reflexivity.
Defined.

Lemma get_failure_follows_call_witness :
  calls (snd (analyze_sentiment_get Fake.float_truthy Fake.py_round
                Fake.pipeline (Fake.get [(lit "text", lit "crash")])
                Fake.w0)) =
    [PStr (lit "crash")].
Proof.
  apply (@get_failure_follows_call Fake.float Fake.float_truthy Fake.py_round
           nat Fake.pipeline (Fake.get [(lit "text", lit "crash")]) Fake.w0).
  reflexivity.
Defined.

Lemma routes_agree_on_status_witness :
  status (analyze_sentiment Fake.float_truthy Fake.py_round Fake.pipeline
            (Fake.post_text (lit "  ")) Fake.w0) =
  status (analyze_sentiment_get Fake.float_truthy Fake.py_round Fake.pipeline
            (Fake.get [(lit "text", lit "  ")]) Fake.w0).
Proof.
  apply (@routes_agree_on_status Fake.float Fake.float_truthy Fake.py_round
           nat Fake.pipeline (Fake.post_text (lit "  "))
           (Fake.get [(lit "text", lit "  ")]) Fake.w0 (lit "  "));
    reflexivity.
Defined.

Lemma debug_only_for_true_witness :
  exists st,
    main_main Stub.py_int Stub.unicode_lower Stub.env1 = Returns st /\
    run_port st = 8080%Z /\
    run_debug st = Some true.
Proof.
  eexists. split; [reflexivity|]. split; [reflexivity|].
  exact (@debug_only_for_true Stub.py_int Stub.unicode_lower Stub.env1 _
           eq_refl eq_refl).
Defined.

